(** * Shallow embedding of the PDB summariser of MoleculeVisualizer

    Sources: [src/static_pdb_viewer.py] ([parse_pdb_info], [upload_pdb])
    and the identical counting loop of [load_example_pdb] in
    [src/simple_app.py].

    Python [str] values are sequences of Unicode code points; they are
    modelled as [list uchar] with [uchar := N].  The only Python exception
    the counting loop can meet is the [IndexError] of [line[21]]; the
    upload handler can also meet the [UnicodeDecodeError] of
    [bytes.decode('utf-8')].  Both are threaded through a small exception
    monad [result]. *)

From Stdlib Require Import List NArith Arith Lia Bool String Ascii Permutation.
Import ListNotations.
Open Scope list_scope.

(** ** Python strings *)

Definition uchar := N.
Definition pystr := list uchar.

(** Converting a Rocq ASCII string literal into a Python string. *)
Fixpoint of_string (s : string) : pystr :=
  match s with
  | EmptyString => []
  | String a s' => N_of_ascii a :: of_string s'
  end.

Definition uchar_eqb (a b : uchar) : bool := N.eqb a b.

Fixpoint pystr_eqb (a b : pystr) : bool :=
  match a, b with
  | [], [] => true
  | x :: a', y :: b' => uchar_eqb x y && pystr_eqb a' b'
  | _, _ => false
  end.

(** [str.startswith(prefix)] *)
Fixpoint startswith (s prefix : pystr) : bool :=
  match prefix, s with
  | [], _ => true
  | p :: prefix', c :: s' => uchar_eqb c p && startswith s' prefix'
  | _ :: _, [] => false
  end.

(** [str.endswith(suffix)] *)
Definition endswith (s suffix : pystr) : bool :=
  startswith (rev s) (rev suffix).

(** [sub in s] for strings: substring containment. *)
Fixpoint contains (s sub : pystr) : bool :=
  match s with
  | [] => startswith [] sub
  | _ :: s' => startswith s sub || contains s' sub
  end.

(** Line boundaries of [str.splitlines]: \n \v \f \r \x1c \x1d \x1e \x85
        (and \r\n as a single boundary). *)
Definition is_line_break (c : uchar) : bool :=
  existsb (uchar_eqb c)
    [10; 11; 12; 13; 28; 29; 30; 133; 8232; 8233]%N.

(** [str.splitlines()]: [cur] holds the current line reversed. *)
Fixpoint splitlines_aux (s : pystr) (cur : pystr) : list pystr :=
  match s with
  | [] => match cur with [] => [] | _ => [rev cur] end
  | c :: s' =>
      if uchar_eqb c 13%N then
        match s' with
        | d :: s'' => if uchar_eqb d 10%N then rev cur :: splitlines_aux s'' []
                      else rev cur :: splitlines_aux s' []
        | [] => [rev cur]
        end
      else if is_line_break c then rev cur :: splitlines_aux s' []
      else splitlines_aux s' (c :: cur)
  end.

Definition splitlines (s : pystr) : list pystr := splitlines_aux s [].

(** Characters for which [str.isspace()] holds. *)
Definition is_space (c : uchar) : bool :=
  ((9 <=? c) && (c <=? 13))%N || ((28 <=? c) && (c <=? 32))%N
  || existsb (uchar_eqb c) [133; 160; 5760]%N
  || ((8192 <=? c) && (c <=? 8202))%N
  || existsb (uchar_eqb c) [8232; 8233; 8239; 8287; 12288]%N.

Fixpoint lstrip (s : pystr) : pystr :=
  match s with
  | [] => []
  | c :: s' => if is_space c then lstrip s' else s
  end.

(** [str.strip()] *)
Definition strip (s : pystr) : pystr := rev (lstrip (rev (lstrip s))).

(** [s[a:b]] for [0 <= a <= b]: never raises. *)
Definition slice (s : pystr) (a b : nat) : pystr := firstn (b - a) (skipn a s).

(** ** Exceptions *)

Inductive py_exc := IndexError | UnicodeDecodeError.

Inductive result (A : Type) : Type :=
| Ok : A -> result A
| Raise : py_exc -> result A.
Arguments Ok {A} _.
Arguments Raise {A} _.

Definition bind {A B} (m : result A) (k : A -> result B) : result B :=
  match m with Ok a => k a | Raise e => Raise e end.

Notation "x <- m ;; k" := (bind m (fun x => k))
  (at level 61, m at next level, right associativity).

(** [try: m  except: h] (a bare [except] catches every exception). *)
Definition try_except {A} (m : result A) (h : py_exc -> result A) : result A :=
  match m with Ok a => Ok a | Raise e => h e end.

(** [s[i]] for [i >= 0]: a one-character string, or [IndexError]. *)
Definition getitem (s : pystr) (i : nat) : result pystr :=
  match nth_error s i with Some c => Ok [c] | None => Raise IndexError end.

(** ** Python sets of strings

    A [set] is a duplicate-free list; [len] is its length. *)

Definition pyset := list pystr.

Definition set_mem (x : pystr) (s : pyset) : bool := existsb (pystr_eqb x) s.

(** [s.add(x)] *)
Definition set_add (x : pystr) (s : pyset) : pyset :=
  if set_mem x s then s else x :: s.

(** ** [parse_pdb_info] *)

Record loop_state := mk_state {
  st_atoms : nat;
  st_residues : pyset;
  st_chains : pyset
}.

Record pdb_info := mk_info {
  atoms : nat;
  residues : nat;
  chains : nat
}.

Definition ATOM : pystr := of_string "ATOM".
Definition HETATM : pystr := of_string "HETATM".

(** [line.startswith("ATOM") or line.startswith("HETATM")] *)
Definition is_record (line : pystr) : bool :=
  startswith line ATOM || startswith line HETATM.

(** [residue_id + chain_id] *)
Definition residue_key (residue_id chain_id : pystr) : pystr :=
  residue_id ++ chain_id.

(** One iteration of [for line in lines:] (lines 18-26). *)
Definition loop_body (st : loop_state) (line : pystr) : result loop_state :=
  if is_record line then
    let atoms' := S (st_atoms st) in
    try_except
      (let residue_id := strip (slice line 22 27) in
       chain_id <- getitem line 21 ;;
       let residues' := set_add (residue_key residue_id chain_id) (st_residues st) in
       let chains' := set_add chain_id (st_chains st) in
       Ok (mk_state atoms' residues' chains'))
      (fun _ => Ok (mk_state atoms' (st_residues st) (st_chains st)))
  else Ok st.

Fixpoint for_lines (lines : list pystr) (st : loop_state) : result loop_state :=
  match lines with
  | [] => Ok st
  | line :: lines' => st' <- loop_body st line ;; for_lines lines' st'
  end.

Definition init_state : loop_state := mk_state 0 [] [].

Definition parse_pdb_info (pdb_content : pystr) : result pdb_info :=
  let lines := splitlines pdb_content in
  st <- for_lines lines init_state ;;
  Ok (mk_info (st_atoms st) (List.length (st_residues st)) (List.length (st_chains st))).

(** ** [bytes.decode('utf-8')] (strict)

    Well-formed UTF-8 as Python's codec accepts it: no overlong forms, no
    surrogates, nothing above U+10FFFF. *)

Definition in_range (lo hi b : N) : bool := ((lo <=? b) && (b <=? hi))%N.

Definition utf8_cont (b : N) : bool := in_range 128 191 b.

Fixpoint decode_utf8_N (bs : list N) : option pystr :=
  match bs with
  | [] => Some []
  | b0 :: r =>
      if (b0 <? 128)%N then
        match decode_utf8_N r with Some s => Some (b0 :: s) | None => None end
      else if in_range 194 223 b0 then
        match r with
        | b1 :: r1 =>
            if utf8_cont b1 then
              match decode_utf8_N r1 with
              | Some s => Some (((b0 - 192) * 64 + (b1 - 128))%N :: s)
              | None => None
              end
            else None
        | [] => None
        end
      else if in_range 224 239 b0 then
        match r with
        | b1 :: b2 :: r2 =>
            let lo1 := if (b0 =? 224)%N then 160%N else 128%N in
            let hi1 := if (b0 =? 237)%N then 159%N else 191%N in
            if in_range lo1 hi1 b1 && utf8_cont b2 then
              match decode_utf8_N r2 with
              | Some s =>
                  Some (((b0 - 224) * 4096 + (b1 - 128) * 64 + (b2 - 128))%N :: s)
              | None => None
              end
            else None
        | _ => None
        end
      else if in_range 240 244 b0 then
        match r with
        | b1 :: b2 :: b3 :: r3 =>
            let lo1 := if (b0 =? 240)%N then 144%N else 128%N in
            let hi1 := if (b0 =? 244)%N then 143%N else 191%N in
            if in_range lo1 hi1 b1 && utf8_cont b2 && utf8_cont b3 then
              match decode_utf8_N r3 with
              | Some s =>
                  Some (((b0 - 240) * 262144 + (b1 - 128) * 4096
                         + (b2 - 128) * 64 + (b3 - 128))%N :: s)
              | None => None
              end
            else None
        | _ => None
        end
      else None
  end.

Definition decode_utf8 (bs : list Byte.byte) : option pystr :=
  decode_utf8_N (map Byte.to_N bs).

(** ** [upload_pdb] *)

(** A [werkzeug] [FileStorage]: its [filename] and the bytes [read()]
    returns. *)
Record file_storage := mk_file {
  filename : pystr;
  file_bytes : list Byte.byte
}.

(** The part of a Flask [request] the handler reads: [request.files]
    restricted to the key ['file']. *)
Record request := mk_request {
  files_file : option file_storage
}.

Inductive response :=
| JsonError (msg : string) (status : nat)
| JsonInfo (info : pdb_info) (fname : pystr) (content : pystr).

(** Calls of [parse_pdb_info] made by the handler, with their argument. *)
Inductive event := EvParse (content : pystr).

Section Upload.

(** [str.lower()] (full Unicode case mapping), left abstract. *)
Variable py_lower : pystr -> pystr.

Definition upload_pdb (req : request) : list event * result response :=
  match files_file req with
  | None => ([], Ok (JsonError "No file part in the request" 400))
  | Some file =>
      if pystr_eqb (filename file) [] then
        ([], Ok (JsonError "No file selected" 400))
      else if negb (endswith (py_lower (filename file)) (of_string ".pdb")) then
        ([], Ok (JsonError "Not a PDB file (must end with .pdb)" 400))
      else
        match decode_utf8 (file_bytes file) with
        | None => ([], Raise UnicodeDecodeError)
        | Some pdb_content =>
            if negb (contains pdb_content ATOM) && negb (contains pdb_content HETATM) then
              ([], Ok (JsonError "Invalid PDB file format (no ATOM or HETATM entries)" 400))
            else
              ([EvParse pdb_content],
               info <- parse_pdb_info pdb_content ;;
               Ok (JsonInfo info (filename file) pdb_content))
        end
  end.

End Upload.

(** ASCII case folding, one instance of [str.lower] on ASCII text. *)
Definition ascii_lower (s : pystr) : pystr :=
  map (fun c => if in_range 65 90 c then (c + 32)%N else c) s.

(** ** Helpers for statements *)

(** A line as [splitlines] yields it: no line boundary inside. *)
Definition no_breaks (l : pystr) : Prop :=
  forallb (fun c => negb (is_line_break c)) l = true.

(** Text made of the given lines, each terminated by ["\n"]. *)
Definition unlines (ls : list pystr) : pystr :=
  List.concat (map (fun l => l ++ [10%N]) ls).

(** The chain part of a residue key: its last character. *)
Definition key_chain (k : pystr) : pystr :=
  match rev k with c :: _ => [c] | [] => [] end.

(** ** Counting invariant of the loop

    Both sets are duplicate free, every chain is the last character of some
    residue key, and there are no more residue keys than counted atoms. *)

Definition count_inv (st : loop_state) : Prop :=
  NoDup (st_residues st) /\ NoDup (st_chains st) /\
  incl (st_chains st) (map key_chain (st_residues st)) /\
  List.length (st_residues st) <= st_atoms st.

(** Example records of the specification (ALA, residue 1). *)
Definition example_line_1 : pystr :=
  of_string "ATOM      1  N   ALA A   1      11.104  13.207   2.500  1.00 20.00           N".
Definition example_line_2 : pystr :=
  of_string "ATOM      2  CA  ALA A   1      11.900  12.000   3.200  1.00 18.50           C".
Definition example_line_2B : pystr :=
  of_string "ATOM      2  CA  ALA B   1      11.900  12.000   3.200  1.00 18.50           C".

(** A header-only file. *)
Definition header_only_text : pystr :=
  unlines [of_string "HEADER    LIPID BINDING PROTEIN"; of_string "TER"; of_string "END"].

(** A request whose ['file'] part carries the given name and ASCII text. *)
Definition upload_request (fname contents : string) : request :=
  mk_request (Some (mk_file (of_string fname) (list_byte_of_string contents))).

(** A record line of exactly 22 characters: chain A, empty residue field. *)
Definition record_line_22 : pystr := of_string "ATOM      1  N   ALA A".

(** ** The example-file handlers

    What [os.path.exists(example_path)] and [open(example_path, 'r').read()]
    observe at the bundled example path: no file, a file whose opening or
    reading raises, or a readable file and its text. *)
Inductive example_file :=
| Missing
| Unreadable
| Readable (text : pystr).

(** [load_example] of [src/static_pdb_viewer.py] (lines 39-59): [None]
    when an exception escapes the handler. *)
Definition load_example (example_path : string) (f : example_file) : option response :=
  match f with
  | Missing =>
      Some (JsonError ("Example file not found: " ++ example_path)%string 404)
  | Unreadable => None
  | Readable pdb_content =>
      match parse_pdb_info pdb_content with
      | Ok info => Some (JsonInfo info (of_string "1cbs.pdb") pdb_content)
      | Raise _ => None
      end
  end.

(** The trame state of [src/simple_app.py] read and written by
    [load_example_pdb]. *)
Record viewer_state := mk_vstate {
  file_name : pystr;
  pdb_content : pystr;
  molecule_info : pdb_info
}.

(** Initial state (lines 11-18). *)
Definition initial_viewer_state : viewer_state :=
  mk_vstate [] [] (mk_info 0 0 0).

(** [load_example_pdb] (lines 21-54); its counting loop (lines 33-47) is
    the loop of [parse_pdb_info], line for line.  [None] when an exception
    escapes. *)
Definition load_example_pdb (f : example_file) (s : viewer_state) : option viewer_state :=
  match f with
  | Missing => Some s
  | Unreadable => None
  | Readable content =>
      let s1 := mk_vstate (of_string "1cbs.pdb") content (molecule_info s) in
      match for_lines (splitlines content) init_state with
      | Ok st =>
          Some (mk_vstate (file_name s1) (pdb_content s1)
                  (mk_info (st_atoms st) (List.length (st_residues st))
                           (List.length (st_chains st))))
      | Raise _ => None
      end
  end.

(** ** Further helpers for statements *)

(** The residue key and the chain a line inserts, if it inserts any. *)
Definition line_entry (l : pystr) : option (pystr * pystr) :=
  if is_record l then
    match nth_error l 21 with
    | Some c => Some (residue_key (strip (slice l 22 27)) [c], [c])
    | None => None
    end
  else None.

(** Text made of the given lines, each terminated by ["\r\n"]. *)
Definition unlines_crlf (ls : list pystr) : pystr :=
  List.concat (map (fun l => l ++ [13%N; 10%N]) ls).

(** ["\n".join(ls)] *)
Fixpoint join_nl (ls : list pystr) : pystr :=
  match ls with
  | [] => []
  | [l] => l
  | l :: ls' => l ++ 10%N :: join_nl ls'
  end.

(** * General lemmas *)

Lemma uchar_eqb_spec (a b : uchar) : uchar_eqb a b = true <-> a = b.
Proof. unfold uchar_eqb. apply N.eqb_eq. Qed.

Lemma pystr_eqb_spec (a b : pystr) : pystr_eqb a b = true <-> a = b.
Proof.
  revert b; induction a as [|x a IH]; intros [|y b]; simpl;
    try (split; congruence).
  rewrite andb_true_iff, uchar_eqb_spec, IH.
  split; [intros [-> ->]; reflexivity | intros H; injection H; auto].
Qed.

Lemma startswith_spec (s p : pystr) :
  startswith s p = true <-> exists t, s = p ++ t.
Proof.
  revert s; induction p as [|x p IH]; intros [|c s]; simpl.
  - split; eauto.
  - split; eauto.
  - split; [discriminate | intros [t Ht]; discriminate].
  - rewrite andb_true_iff, uchar_eqb_spec, IH. split.
    + intros [-> [t ->]]; eauto.
    + intros [t Ht]; injection Ht as -> ->; eauto.
Qed.

Lemma startswith_length (s p : pystr) :
  startswith s p = true -> List.length p <= List.length s.
Proof.
  intros H; apply startswith_spec in H as [t ->].
  rewrite length_app; lia.
Qed.

(** ** Sets *)

Lemma set_mem_spec (x : pystr) (s : pyset) : set_mem x s = true <-> In x s.
Proof.
  unfold set_mem; rewrite existsb_exists; split.
  - intros [y [Hy Heq]]; apply pystr_eqb_spec in Heq; subst; assumption.
  - intros Hx; exists x; split; [assumption | apply pystr_eqb_spec; reflexivity].
Qed.

Lemma set_add_In (x y : pystr) (s : pyset) :
  In y (set_add x s) <-> y = x \/ In y s.
Proof.
  unfold set_add; destruct (set_mem x s) eqn:Hm; simpl.
  - apply set_mem_spec in Hm; split; [auto | intros [->|]; auto].
  - split; intros [|]; auto.
Qed.

Lemma set_add_NoDup (x : pystr) (s : pyset) : NoDup s -> NoDup (set_add x s).
Proof.
  unfold set_add; destruct (set_mem x s) eqn:Hm; [auto|].
  intros Hs; constructor; [|assumption].
  intros Hin; apply set_mem_spec in Hin; congruence.
Qed.

Lemma set_add_length (x : pystr) (s : pyset) :
  List.length (set_add x s) <= S (List.length s).
Proof. unfold set_add; destruct (set_mem x s); simpl; lia. Qed.

Lemma set_add_mem (x : pystr) (s : pyset) : In x s -> set_add x s = s.
Proof.
  intros H; unfold set_add; apply set_mem_spec in H; rewrite H; reflexivity.
Qed.

Lemma set_add_fresh (x : pystr) (s : pyset) : ~ In x s -> set_add x s = x :: s.
Proof.
  intros H; unfold set_add; destruct (set_mem x s) eqn:Hm; [|reflexivity].
  apply set_mem_spec in Hm; contradiction.
Qed.

(** ** The loop body, case by case *)

Lemma loop_body_skip (st : loop_state) (line : pystr) :
  is_record line = false -> loop_body st line = Ok st.
Proof. intros H; unfold loop_body; rewrite H; reflexivity. Qed.

Lemma loop_body_short (st : loop_state) (line : pystr) :
  is_record line = true -> List.length line <= 21 ->
  loop_body st line = Ok (mk_state (S (st_atoms st)) (st_residues st) (st_chains st)).
Proof.
  intros Hr Hl; unfold loop_body, getitem; rewrite Hr.
  rewrite (proj2 (nth_error_None line 21) Hl); reflexivity.
Qed.

Lemma loop_body_long (st : loop_state) (line : pystr) :
  is_record line = true -> 22 <= List.length line ->
  exists c, nth_error line 21 = Some c /\
    loop_body st line =
      Ok (mk_state (S (st_atoms st))
            (set_add (residue_key (strip (slice line 22 27)) [c]) (st_residues st))
            (set_add [c] (st_chains st))).
Proof.
  intros Hr Hl; destruct (nth_error line 21) as [c|] eqn:Hc.
  - exists c; split; [reflexivity|].
    unfold loop_body, getitem; rewrite Hr, Hc; reflexivity.
  - apply nth_error_None in Hc; lia.
Qed.

Lemma loop_body_total (st : loop_state) (line : pystr) :
  exists st', loop_body st line = Ok st'.
Proof.
  destruct (is_record line) eqn:Hr; [|eexists; apply loop_body_skip; exact Hr].
  destruct (Nat.le_gt_cases (List.length line) 21) as [Hl|Hl].
  - eexists; apply loop_body_short; assumption.
  - destruct (loop_body_long st line Hr) as [c [_ Heq]]; [lia|].
    eexists; exact Heq.
Qed.

Lemma for_lines_total (lines : list pystr) (st : loop_state) :
  exists st', for_lines lines st = Ok st'.
Proof.
  revert st; induction lines as [|l lines IH]; intros st; simpl.
  - eauto.
  - destruct (loop_body_total st l) as [st1 ->]; simpl; apply IH.
Qed.

Lemma for_lines_app (ls1 ls2 : list pystr) (st : loop_state) :
  for_lines (ls1 ++ ls2) st = (st' <- for_lines ls1 st ;; for_lines ls2 st').
Proof.
  revert st; induction ls1 as [|l ls1 IH]; intros st; simpl; [reflexivity|].
  destruct (loop_body st l); simpl; [apply IH | reflexivity].
Qed.

(** ** [splitlines] on text built by [unlines] *)

Lemma no_breaks_cons (c : uchar) (l : pystr) :
  no_breaks (c :: l) <-> is_line_break c = false /\ no_breaks l.
Proof.
  unfold no_breaks; simpl; rewrite andb_true_iff, negb_true_iff; reflexivity.
Qed.

Lemma splitlines_aux_line (l cur rest : pystr) :
  no_breaks l ->
  splitlines_aux (l ++ 10%N :: rest) cur = (rev cur ++ l) :: splitlines_aux rest [].
Proof.
  revert cur; induction l as [|c l IH]; intros cur Hl; simpl.
  - rewrite app_nil_r; reflexivity.
  - apply no_breaks_cons in Hl as [Hc Hl].
    assert (H13 : uchar_eqb c 13%N = false).
    { destruct (uchar_eqb c 13%N) eqn:E; [|reflexivity].
      apply uchar_eqb_spec in E; subst; discriminate. }
    rewrite H13, Hc, IH by assumption; simpl.
    rewrite <- app_assoc; reflexivity.
Qed.

Lemma splitlines_unlines (ls : list pystr) :
  Forall no_breaks ls -> splitlines (unlines ls) = ls.
Proof.
  unfold splitlines; induction 1 as [|l ls Hl Hls IH]; [reflexivity|].
  unfold unlines; simpl; rewrite <- app_assoc; simpl.
  rewrite splitlines_aux_line by assumption; simpl.
  f_equal; exact IH.
Qed.

Lemma parse_unlines (ls : list pystr) :
  Forall no_breaks ls ->
  parse_pdb_info (unlines ls) =
    (st <- for_lines ls init_state ;;
     Ok (mk_info (st_atoms st) (List.length (st_residues st))
                 (List.length (st_chains st)))).
Proof. intros H; unfold parse_pdb_info; rewrite splitlines_unlines by assumption; reflexivity. Qed.

Lemma key_chain_residue_key (r : pystr) (c : uchar) :
  key_chain (residue_key r [c]) = [c].
Proof. unfold key_chain, residue_key; rewrite rev_unit; reflexivity. Qed.

Lemma count_inv_init : count_inv init_state.
Proof.
  repeat split; simpl; try constructor; try lia.
  intros x [].
Qed.

Lemma count_inv_step (st st' : loop_state) (line : pystr) :
  count_inv st -> loop_body st line = Ok st' -> count_inv st'.
Proof.
  intros (HR & HC & Hincl & Hlen) Hst.
  destruct (is_record line) eqn:Hr.
  2:{ rewrite loop_body_skip in Hst by exact Hr.
      injection Hst as <-; repeat split; assumption. }
  destruct (Nat.le_gt_cases (List.length line) 21) as [Hl|Hl].
  - rewrite loop_body_short in Hst by assumption.
    injection Hst as <-; repeat split; simpl; try assumption; lia.
  - destruct (loop_body_long st line Hr) as [c [_ Heq]]; [lia|].
    rewrite Heq in Hst; injection Hst as <-.
    set (k := residue_key (strip (slice line 22 27)) [c]).
    repeat split; simpl.
    + apply set_add_NoDup; assumption.
    + apply set_add_NoDup; assumption.
    + intros y Hy; apply set_add_In in Hy as [->|Hy].
      * apply in_map_iff; exists k; split.
        -- apply key_chain_residue_key.
        -- apply set_add_In; left; reflexivity.
      * apply Hincl, in_map_iff in Hy as [k' [Hk' Hin]].
        apply in_map_iff; exists k'; split; [assumption|].
        apply set_add_In; right; assumption.
    + pose proof (set_add_length k (st_residues st)); lia.
Qed.

Lemma for_lines_inv (lines : list pystr) (st st' : loop_state) :
  count_inv st -> for_lines lines st = Ok st' -> count_inv st'.
Proof.
  revert st; induction lines as [|l lines IH]; intros st Hinv Hrun; simpl in Hrun.
  - injection Hrun as <-; assumption.
  - destruct (loop_body st l) as [st1|e] eqn:Hb; simpl in Hrun; [|discriminate].
    apply (IH st1); [apply (count_inv_step st st1 l); assumption | assumption].
Qed.

Lemma count_inv_bounds (st : loop_state) :
  count_inv st ->
  List.length (st_chains st) <= List.length (st_residues st) <= st_atoms st.
Proof.
  intros (HR & HC & Hincl & Hlen); split; [|assumption].
  rewrite <- (length_map key_chain (st_residues st)).
  apply NoDup_incl_length; assumption.
Qed.

Lemma for_lines_no_records (lines : list pystr) (st : loop_state) :
  Forall (fun l => is_record l = false) lines -> for_lines lines st = Ok st.
Proof.
  intros H; revert st; induction H as [|l lines Hl Hls IH]; intros st; simpl;
    [reflexivity|].
  rewrite loop_body_skip by assumption; simpl; apply IH.
Qed.

(** ** Slices of a line at the fixed PDB columns *)

Lemma slice_21_27_split (l : pystr) :
  22 <= List.length l ->
  exists c, nth_error l 21 = Some c /\ slice l 21 27 = c :: slice l 22 27.
Proof.
  intros Hl; unfold slice.
  replace (27 - 21) with (S (27 - 22)) by reflexivity.
  destruct (skipn 21 l) as [|c rest] eqn:Hs.
  - apply (f_equal (@List.length _)) in Hs; rewrite length_skipn in Hs; simpl in Hs; lia.
  - exists c; split.
    + pose proof (nth_error_skipn 21 l 0) as E; rewrite Hs in E; simpl in E.
      symmetry; exact E.
    + replace (skipn 22 l) with (skipn 1 (skipn 21 l))
        by (rewrite skipn_skipn; reflexivity).
      rewrite Hs; reflexivity.
Qed.

Lemma parse_pdb_info_from_state (text : pystr) :
  exists st, for_lines (splitlines text) init_state = Ok st /\
    parse_pdb_info text =
      Ok (mk_info (st_atoms st) (List.length (st_residues st))
                  (List.length (st_chains st))) /\
    count_inv st.
Proof.
  destruct (for_lines_total (splitlines text) init_state) as [st Hst].
  exists st; split; [exact Hst|split].
  - unfold parse_pdb_info; rewrite Hst; reflexivity.
  - apply (for_lines_inv _ _ _ count_inv_init Hst).
Qed.

Lemma residue_key_chain_distinct (r1 r2 : pystr) (c1 c2 : uchar) :
  c1 <> c2 -> residue_key r1 [c1] <> residue_key r2 [c2].
Proof.
  intros Hc Heq.
  apply (f_equal key_chain) in Heq; rewrite !key_chain_residue_key in Heq.
  injection Heq; exact Hc.
Qed.

Lemma loop_body_contribution (st : loop_state) (line : pystr) (st' : loop_state) :
  loop_body st line = Ok st' ->
  st_atoms st' = st_atoms st + (if is_record line then 1 else 0) /\
  List.length (st_residues st') <=
    List.length (st_residues st) + (if is_record line then 1 else 0) /\
  List.length (st_chains st') <=
    List.length (st_chains st) + (if is_record line then 1 else 0).
Proof.
  intros H; destruct (is_record line) eqn:Hr.
  2:{ rewrite loop_body_skip in H by exact Hr; injection H as <-; lia. }
  destruct (Nat.le_gt_cases (List.length line) 21) as [Hl|Hl].
  - rewrite loop_body_short in H by assumption; injection H as <-; simpl; lia.
  - destruct (loop_body_long st line Hr) as [c [_ Heq]]; [lia|].
    rewrite Heq in H; injection H as <-; simpl.
    pose proof (set_add_length (residue_key (strip (slice line 22 27)) [c]) (st_residues st)).
    pose proof (set_add_length [c] (st_chains st)); lia.
Qed.

(** * The claims *)

(** C1: for every text, [parse_pdb_info] returns a summary with
    chains <= residues <= atoms; each line adds at most one residue key and
    at most one chain to the sets, and exactly one atom when it is a record
    line (none otherwise); residue keys built from distinct chain
    characters are distinct, the chain character being the key's last
    character. *)
Theorem parse_pdb_info_count_order :
  (forall text, exists r, parse_pdb_info text = Ok r /\
                          chains r <= residues r <= atoms r) /\
  (forall st line st', loop_body st line = Ok st' ->
     st_atoms st' = st_atoms st + (if is_record line then 1 else 0) /\
     List.length (st_residues st') <=
       List.length (st_residues st) + (if is_record line then 1 else 0) /\
     List.length (st_chains st') <=
       List.length (st_chains st) + (if is_record line then 1 else 0)) /\
  (forall r1 r2 c1 c2, c1 <> c2 -> residue_key r1 [c1] <> residue_key r2 [c2]).
Proof.
  split; [|split].
  - intros text; destruct (parse_pdb_info_from_state text) as (st & _ & Hp & Hinv).
    eexists; split; [exact Hp|]; simpl; apply count_inv_bounds; exact Hinv.
  - apply loop_body_contribution.
  - apply residue_key_chain_distinct.
Qed.

Lemma parse_pdb_info_count_order_witness :
  (exists r, parse_pdb_info (example_line_1 ++ [10%N] ++ example_line_2B) = Ok r /\
             chains r <= residues r <= atoms r) /\
  (st_atoms (mk_state 2 [[65%N]] [[65%N]]) = 1 + 1 /\
   List.length [[65%N]] <= List.length [[65%N]] + 1 /\
   List.length [[65%N]] <= List.length [[65%N]] + 1) /\
  (65 <> 66)%N /\ residue_key (of_string "1") [65%N] <> residue_key (of_string "1") [66%N].
Proof.
  split; [apply (proj1 parse_pdb_info_count_order)|].
  split.
  - exact (proj1 (proj2 parse_pdb_info_count_order)
             (mk_state 1 [[65%N]] [[65%N]]) (of_string "ATOMB")
             (mk_state 2 [[65%N]] [[65%N]]) eq_refl).
  - split; [lia|].
    apply (proj2 (proj2 parse_pdb_info_count_order)); lia.
Defined.

(** C7: [parse_pdb_info] never raises: on every text it returns a summary
    (the [IndexError] of [line[21]] is always caught by the bare [except]). *)
Theorem parse_pdb_info_total :
  forall text, exists r, parse_pdb_info text = Ok r.
Proof.
  intros text; destruct (parse_pdb_info_from_state text) as (st & _ & Hp & _).
  eexists; exact Hp.
Qed.

(** C8: [parse_pdb_info] is a function of its text alone: two calls on the
    same text return the same summary. *)
Theorem parse_pdb_info_deterministic :
  forall text1 text2 r1 r2,
    text1 = text2 -> parse_pdb_info text1 = Ok r1 -> parse_pdb_info text2 = Ok r2 ->
    r1 = r2.
Proof. intros text1 text2 r1 r2 -> H1 H2; rewrite H1 in H2; injection H2; auto. Qed.

Lemma parse_pdb_info_deterministic_witness :
  example_line_1 = example_line_1 /\
  parse_pdb_info example_line_1 = Ok (mk_info 1 1 1) /\
  (forall r, parse_pdb_info example_line_1 = Ok r -> r = mk_info 1 1 1).
Proof.
  split; [reflexivity|]; split; [vm_compute; reflexivity|].
  intros r Hr. apply (parse_pdb_info_deterministic example_line_1 example_line_1);
    [reflexivity | exact Hr | vm_compute; reflexivity].
Defined.

(** C5: the two ALA records of chain A, residue 1, give atoms=2, residues=1,
    chains=1; with the second record in chain B they give 2, 2, 2. *)
Theorem parse_pdb_info_examples :
  parse_pdb_info (example_line_1 ++ [10%N] ++ example_line_2) = Ok (mk_info 2 1 1) /\
  parse_pdb_info (example_line_1 ++ [10%N] ++ example_line_2B) = Ok (mk_info 2 2 2).
Proof. split; vm_compute; reflexivity. Qed.

(** C6: a text with no line starting with ATOM or HETATM (the empty text,
    a file of HEADER, TER and END lines, ...) gives atoms=0, residues=0,
    chains=0. *)
Theorem parse_pdb_info_no_records :
  forall text, Forall (fun l => is_record l = false) (splitlines text) ->
    parse_pdb_info text = Ok (mk_info 0 0 0).
Proof.
  intros text H; unfold parse_pdb_info.
  rewrite for_lines_no_records by exact H; reflexivity.
Qed.

Lemma parse_pdb_info_no_records_witness :
  parse_pdb_info [] = Ok (mk_info 0 0 0) /\
  parse_pdb_info header_only_text = Ok (mk_info 0 0 0).
Proof.
  split; apply parse_pdb_info_no_records; vm_compute; repeat constructor.
Defined.

(** C3: appending a record line (ATOM/HETATM prefix) of at most 21
    characters to any file adds 1 to atoms and leaves residues and chains
    unchanged. *)
Theorem parse_short_record_atoms_only :
  forall ls line r,
    Forall no_breaks ls -> no_breaks line ->
    is_record line = true -> List.length line <= 21 ->
    parse_pdb_info (unlines ls) = Ok r ->
    parse_pdb_info (unlines (ls ++ [line])) =
      Ok (mk_info (S (atoms r)) (residues r) (chains r)).
Proof.
  intros ls line r Hls Hl Hr Hlen Hp.
  rewrite parse_unlines in Hp by exact Hls.
  rewrite parse_unlines by (apply Forall_app; auto).
  rewrite for_lines_app.
  destruct (for_lines_total ls init_state) as [st Hst].
  rewrite Hst in Hp |- *; simpl in Hp |- *.
  injection Hp as <-; simpl.
  rewrite loop_body_short by assumption; reflexivity.
Qed.

Lemma parse_short_record_atoms_only_witness :
  parse_pdb_info (unlines [example_line_1; of_string "ATOM      3  C"]) =
    Ok (mk_info 2 1 1).
Proof.
  apply (parse_short_record_atoms_only [example_line_1] (of_string "ATOM      3  C")
           (mk_info 1 1 1));
    vm_compute; repeat constructor.
Defined.

(** C2 (as stated, refuted): the 4-character line "ATOM" is shorter than 6
    characters, yet it is a record line and adds 1 to atoms. *)
Lemma short_ATOM_line_counted :
  List.length (of_string "ATOM") < 6 /\
  is_record (of_string "ATOM") = true /\
  parse_pdb_info (of_string "ATOM") = Ok (mk_info 1 0 0).
Proof. split; [simpl; lia|]; split; vm_compute; reflexivity. Qed.

(** C2 (amended): a line is a record line exactly when it starts with the
    prefix ATOM or the prefix HETATM; other lines leave the loop state
    unchanged, record lines add 1 to atoms, and only a line of fewer than
    4 characters is too short to be a record line. *)
Theorem is_record_prefix :
  forall st line,
    (is_record line = true <->
       (exists t, line = ATOM ++ t) \/ (exists t, line = HETATM ++ t)) /\
    (is_record line = false -> loop_body st line = Ok st) /\
    (is_record line = true ->
       exists st', loop_body st line = Ok st' /\ st_atoms st' = S (st_atoms st)) /\
    (List.length line < 4 -> is_record line = false).
Proof.
  intros st line; split; [|split; [|split]].
  - unfold is_record; rewrite orb_true_iff, !startswith_spec; reflexivity.
  - apply loop_body_skip.
  - intros Hr; destruct (Nat.le_gt_cases (List.length line) 21) as [Hl|Hl].
    + eexists; split; [apply loop_body_short; assumption | reflexivity].
    + destruct (loop_body_long st line Hr) as [c [_ Heq]]; [lia|].
      eexists; split; [exact Heq | reflexivity].
  - intros Hl; unfold is_record.
    destruct (startswith line ATOM) eqn:H1.
    { apply startswith_length in H1; simpl in H1; lia. }
    destruct (startswith line HETATM) eqn:H2; [|reflexivity].
    apply startswith_length in H2; simpl in H2; lia.
Qed.

Lemma is_record_prefix_witness :
  is_record (of_string "ATOM") = true /\
  (exists st', loop_body init_state (of_string "ATOM") = Ok st' /\ st_atoms st' = 1) /\
  is_record (of_string "ATO") = false /\
  loop_body init_state (of_string "END") = Ok init_state.
Proof.
  split; [apply (proj1 (is_record_prefix init_state (of_string "ATOM")));
          left; exists []; reflexivity|].
  split; [apply (proj1 (proj2 (proj2 (is_record_prefix init_state (of_string "ATOM")))));
          vm_compute; reflexivity|].
  split; [apply (proj2 (proj2 (proj2 (is_record_prefix init_state (of_string "ATO")))));
          simpl; lia|].
  apply (proj1 (proj2 (is_record_prefix init_state (of_string "END")))); vm_compute;
    reflexivity.
Defined.

Lemma slice_short (l : pystr) (a b : nat) :
  List.length l <= a -> slice l a b = [].
Proof. intros H; unfold slice; rewrite skipn_all2 by exact H; apply firstn_nil. Qed.

(** C4: two record lines agreeing on columns 22-27 (1-indexed, the
    columns being present) give one residue key and one chain, whatever
    else they contain: the second adds nothing to either set in any state,
    and the two-line file gives atoms=2, residues=1, chains=1.  Two record
    lines with the same residue field (columns 23-27) and different chain
    characters (column 22) give atoms=2, residues=2, chains=2. *)
Theorem dedup_on_fixed_columns :
  (forall l1 l2,
     no_breaks l1 -> no_breaks l2 -> is_record l1 = true -> is_record l2 = true ->
     22 <= List.length l1 -> slice l1 21 27 = slice l2 21 27 ->
     parse_pdb_info (unlines [l1; l2]) = Ok (mk_info 2 1 1) /\
     (forall st st1, loop_body st l1 = Ok st1 ->
        loop_body st1 l2 = Ok (mk_state (S (st_atoms st1)) (st_residues st1) (st_chains st1)))) /\
  (forall l1 l2,
     no_breaks l1 -> no_breaks l2 -> is_record l1 = true -> is_record l2 = true ->
     22 <= List.length l1 -> 22 <= List.length l2 ->
     nth_error l1 21 <> nth_error l2 21 -> slice l1 22 27 = slice l2 22 27 ->
     parse_pdb_info (unlines [l1; l2]) = Ok (mk_info 2 2 2)).
Proof.
  split.
  - intros l1 l2 Hb1 Hb2 Hr1 Hr2 Hlen1 Hsl.
    destruct (slice_21_27_split l1 Hlen1) as [c [Hc1 Hs1]].
    assert (Hlen2 : 22 <= List.length l2).
    { destruct (Nat.le_gt_cases 22 (List.length l2)) as [|Hlt]; [assumption|].
      rewrite (slice_short l2) in Hsl by lia; rewrite Hs1 in Hsl; discriminate. }
    destruct (slice_21_27_split l2 Hlen2) as [c' [Hc2 Hs2]].
    rewrite Hs1, Hs2 in Hsl; injection Hsl as <- Hsl.
    assert (Hstep : forall st st1, loop_body st l1 = Ok st1 ->
        loop_body st1 l2 = Ok (mk_state (S (st_atoms st1)) (st_residues st1) (st_chains st1))).
    { intros st st1 H1.
      destruct (loop_body_long st l1 Hr1 Hlen1) as [d [Hd Heq1]].
      rewrite Hc1 in Hd; injection Hd as <-.
      rewrite Heq1 in H1; injection H1 as <-.
      destruct (loop_body_long
                  (mk_state (S (st_atoms st))
                     (set_add (residue_key (strip (slice l1 22 27)) [c]) (st_residues st))
                     (set_add [c] (st_chains st))) l2 Hr2 Hlen2) as [d [Hd Heq2]].
      rewrite Hc2 in Hd; injection Hd as <-.
      rewrite Heq2; simpl; rewrite <- Hsl.
      rewrite (set_add_mem (residue_key _ [c])), (set_add_mem [c]);
        try reflexivity; apply set_add_In; left; reflexivity. }
    split; [|exact Hstep].
    rewrite parse_unlines by (repeat constructor; assumption); cbn [for_lines].
    destruct (loop_body_long init_state l1 Hr1 Hlen1) as [d [_ Heq1]].
    rewrite Heq1; cbn [bind]; rewrite (Hstep _ _ Heq1); reflexivity.
  - intros l1 l2 Hb1 Hb2 Hr1 Hr2 Hlen1 Hlen2 Hch Hsl.
    rewrite parse_unlines by (repeat constructor; assumption); simpl.
    destruct (loop_body_long init_state l1 Hr1 Hlen1) as [c1 [Hc1 Heq1]].
    rewrite Heq1; simpl.
    destruct (loop_body_long
                (mk_state 1 (set_add (residue_key (strip (slice l1 22 27)) [c1]) [])
                   (set_add [c1] [])) l2 Hr2 Hlen2) as [c2 [Hc2 Heq2]].
    rewrite Heq2; simpl.
    assert (Hne : c1 <> c2) by (intros ->; apply Hch; congruence).
    rewrite Hsl; unfold set_add at 2 4; simpl.
    rewrite !set_add_fresh; [reflexivity| |].
    + intros [H|[]]; injection H; auto.
    + intros [H|[]]; exact (residue_key_chain_distinct _ _ _ _ Hne H).
Qed.

Lemma dedup_on_fixed_columns_witness :
  parse_pdb_info (unlines [example_line_1; example_line_2]) = Ok (mk_info 2 1 1) /\
  parse_pdb_info (unlines [example_line_1; example_line_2B]) = Ok (mk_info 2 2 2).
Proof.
  split.
  - apply (proj1 dedup_on_fixed_columns example_line_1 example_line_2);
      vm_compute; try reflexivity; repeat constructor.
  - apply (proj2 dedup_on_fixed_columns example_line_1 example_line_2B);
      vm_compute; try reflexivity; try (repeat constructor; fail); congruence.
Defined.

(** C10: a record line of 22 to 26 characters has its chain character
    (column 22), so both sets receive an element: the residue key is built
    from the truncated, possibly empty, field after column 22; insertion
    is skipped only for record lines of at most 21 characters. *)
Theorem record_22_to_26_inserted :
  forall st line,
    is_record line = true -> 22 <= List.length line < 27 ->
    exists c, nth_error line 21 = Some c /\
      slice line 22 27 = skipn 22 line /\
      loop_body st line =
        Ok (mk_state (S (st_atoms st))
              (set_add (residue_key (strip (skipn 22 line)) [c]) (st_residues st))
              (set_add [c] (st_chains st))) /\
      In (residue_key (strip (skipn 22 line)) [c]) (st_residues (mk_state (S (st_atoms st))
              (set_add (residue_key (strip (skipn 22 line)) [c]) (st_residues st))
              (set_add [c] (st_chains st)))) /\
      In [c] (set_add [c] (st_chains st)).
Proof.
  intros st line Hr [Hl1 Hl2].
  destruct (loop_body_long st line Hr Hl1) as [c [Hc Heq]].
  assert (Hsk : slice line 22 27 = skipn 22 line).
  { unfold slice; apply firstn_all2; rewrite length_skipn; lia. }
  exists c; split; [exact Hc|]; split; [exact Hsk|]; split.
  - rewrite Heq, Hsk; reflexivity.
  - split; apply set_add_In; left; reflexivity.
Qed.

Lemma record_22_to_26_inserted_witness :
  is_record record_line_22 = true /\ List.length record_line_22 = 22 /\
  parse_pdb_info record_line_22 = Ok (mk_info 1 1 1) /\
  exists c, nth_error record_line_22 21 = Some c /\
    loop_body init_state record_line_22 =
      Ok (mk_state 1 [residue_key [] [c]] [[c]]).
Proof.
  split; [vm_compute; reflexivity|]; split; [reflexivity|].
  split; [vm_compute; reflexivity|].
  destruct (record_22_to_26_inserted init_state record_line_22) as (c & Hc & _ & Heq & _);
    [vm_compute; reflexivity | vm_compute; lia |].
  exists c; split; [exact Hc|]; rewrite Heq.
  vm_compute in Hc; injection Hc as <-; vm_compute; reflexivity.
Defined.

(** C9: [upload_pdb] answers with an error (status 400) and does not call
    [parse_pdb_info] when the lower-cased file name does not end in .pdb
    or when the decoded text contains neither ATOM nor HETATM;
    [parse_pdb_info] is called only on decoded text of a file that passes
    both checks.  [str.lower] is left abstract. *)
Theorem upload_pdb_gate :
  forall py_lower req,
    (forall file, files_file req = Some file ->
       endswith (py_lower (filename file)) (of_string ".pdb") = false \/
       (exists t, decode_utf8 (file_bytes file) = Some t /\
                  contains t ATOM = false /\ contains t HETATM = false) ->
       exists msg, upload_pdb py_lower req = ([], Ok (JsonError msg 400))) /\
    (forall t, In (EvParse t) (fst (upload_pdb py_lower req)) ->
       exists file, files_file req = Some file /\
         endswith (py_lower (filename file)) (of_string ".pdb") = true /\
         decode_utf8 (file_bytes file) = Some t /\
         (contains t ATOM = true \/ contains t HETATM = true)).
Proof.
  intros py_lower req; split.
  - intros file Hf Hbad; unfold upload_pdb; rewrite Hf.
    destruct (pystr_eqb (filename file) []); [eexists; reflexivity|].
    destruct Hbad as [He | (t & Ht & Ha & Hh)].
    + rewrite He; eexists; reflexivity.
    + destruct (endswith (py_lower (filename file)) (of_string ".pdb"));
        [|eexists; reflexivity].
      simpl; rewrite Ht, Ha, Hh; eexists; reflexivity.
  - intros t; unfold upload_pdb.
    destruct (files_file req) as [file|]; [|simpl; tauto].
    destruct (pystr_eqb (filename file) []); [simpl; tauto|].
    destruct (endswith (py_lower (filename file)) (of_string ".pdb")) eqn:He;
      [|simpl; tauto].
    simpl; destruct (decode_utf8 (file_bytes file)) as [t'|] eqn:Hd; [|simpl; tauto].
    destruct (contains t' ATOM) eqn:Ha, (contains t' HETATM) eqn:Hh; simpl;
      try tauto; intros [H|[]]; injection H as <-; exists file; auto.
Qed.

Lemma upload_pdb_gate_witness :
  (exists msg, upload_pdb ascii_lower (upload_request "notes.txt" "ATOM")
                 = ([], Ok (JsonError msg 400))) /\
  (exists msg, upload_pdb ascii_lower (upload_request "x.pdb" "HEADER")
                 = ([], Ok (JsonError msg 400))) /\
  (exists file, files_file (upload_request "X.PDB" "ATOM") = Some file /\
     endswith (ascii_lower (filename file)) (of_string ".pdb") = true /\
     decode_utf8 (file_bytes file) = Some (of_string "ATOM") /\
     (contains (of_string "ATOM") ATOM = true \/ contains (of_string "ATOM") HETATM = true)).
Proof.
  split; [apply (proj1 (upload_pdb_gate ascii_lower
                         (upload_request "notes.txt" "ATOM")) _ eq_refl);
          left; vm_compute; reflexivity|].
  split; [apply (proj1 (upload_pdb_gate ascii_lower
                         (upload_request "x.pdb" "HEADER")) _ eq_refl);
          right; exists (of_string "HEADER"); vm_compute; auto|].
  apply (proj2 (upload_pdb_gate ascii_lower (upload_request "X.PDB" "ATOM"))).
  vm_compute; left; reflexivity.
Defined.

(** * Further properties of the code *)

(** ** What one line and a run of lines insert *)

Lemma loop_body_entry (st : loop_state) (l : pystr) :
  loop_body st l =
    Ok (mk_state (if is_record l then S (st_atoms st) else st_atoms st)
          (match line_entry l with Some (k, _) => set_add k (st_residues st)
                                 | None => st_residues st end)
          (match line_entry l with Some (_, ch) => set_add ch (st_chains st)
                                 | None => st_chains st end)).
Proof.
  unfold line_entry; destruct (is_record l) eqn:Hr.
  - unfold loop_body, getitem; rewrite Hr.
    destruct (nth_error l 21); reflexivity.
  - rewrite loop_body_skip by exact Hr; destruct st; reflexivity.
Qed.

Lemma for_lines_spec (ls : list pystr) (st : loop_state) :
  exists st', for_lines ls st = Ok st' /\
    st_atoms st' = st_atoms st + List.length (filter is_record ls) /\
    (forall k, In k (st_residues st') <->
       In k (st_residues st) \/ exists l ch, In l ls /\ line_entry l = Some (k, ch)) /\
    (forall ch, In ch (st_chains st') <->
       In ch (st_chains st) \/ exists l k, In l ls /\ line_entry l = Some (k, ch)).
Proof.
  revert st; induction ls as [|l ls IH]; intros st.
  - exists st; simpl; repeat split; try lia; intros H;
      [auto | destruct H as [H|(? & ? & [] & _)]; exact H
      | auto | destruct H as [H|(? & ? & [] & _)]; exact H].
  - simpl; rewrite loop_body_entry; simpl.
    match goal with |- context [for_lines ls ?s] => destruct (IH s) as (st' & Hr & Ha & Hk & Hc) end.
    exists st'; split; [exact Hr|]; split.
    { rewrite Ha; destruct (is_record l); simpl; lia. }
    split.
    + intros k; rewrite Hk; destruct (line_entry l) as [[k0 ch0]|] eqn:He.
      * cbn [st_residues]; rewrite set_add_In; split.
        -- intros [[->|H]|(l' & ch & Hl' & He')]; eauto 6.
        -- intros [H|(l' & ch & [<-|Hl'] & He')]; eauto 6.
           rewrite He in He'; injection He' as -> ->; auto.
      * split.
        -- intros [H|(l' & ch & Hl' & He')]; eauto 6.
        -- intros [H|(l' & ch & [<-|Hl'] & He')]; eauto 6; congruence.
    + intros ch; rewrite Hc; destruct (line_entry l) as [[k0 ch0]|] eqn:He.
      * cbn [st_chains]; rewrite set_add_In; split.
        -- intros [[->|H]|(l' & k & Hl' & He')]; eauto 6.
        -- intros [H|(l' & k & [<-|Hl'] & He')]; eauto 6.
           rewrite He in He'; injection He' as -> ->; auto.
      * split.
        -- intros [H|(l' & k & Hl' & He')]; eauto 6.
        -- intros [H|(l' & k & [<-|Hl'] & He')]; eauto 6; congruence.
Qed.

Lemma NoDup_same_elements_length {A} (a b : list A) :
  NoDup a -> NoDup b -> (forall x, In x a <-> In x b) -> List.length a = List.length b.
Proof.
  intros Ha Hb H; apply Nat.le_antisymm; apply NoDup_incl_length; auto;
    intros x; apply H.
Qed.

(** The summary of a text, read off its lines. *)
Lemma parse_pdb_info_spec (text : pystr) :
  exists st, parse_pdb_info text =
      Ok (mk_info (st_atoms st) (List.length (st_residues st))
                  (List.length (st_chains st))) /\
    count_inv st /\
    st_atoms st = List.length (filter is_record (splitlines text)) /\
    (forall k, In k (st_residues st) <->
       exists l ch, In l (splitlines text) /\ line_entry l = Some (k, ch)) /\
    (forall ch, In ch (st_chains st) <->
       exists l k, In l (splitlines text) /\ line_entry l = Some (k, ch)).
Proof.
  destruct (for_lines_spec (splitlines text) init_state) as (st & Hr & Ha & Hk & Hc).
  exists st; split; [unfold parse_pdb_info; rewrite Hr; reflexivity|].
  split; [exact (for_lines_inv _ _ _ count_inv_init Hr)|].
  split; [exact Ha|]; split.
  - intros k; rewrite Hk; simpl; split; [intros [[]|H]; exact H | auto].
  - intros ch; rewrite Hc; simpl; split; [intros [[]|H]; exact H | auto].
Qed.

(** ** [splitlines] on other shapes of text *)

Lemma splitlines_aux_line_crlf (l cur rest : pystr) :
  no_breaks l ->
  splitlines_aux (l ++ 13%N :: 10%N :: rest) cur = (rev cur ++ l) :: splitlines_aux rest [].
Proof.
  revert cur; induction l as [|c l IH]; intros cur Hl; simpl.
  - rewrite app_nil_r; reflexivity.
  - apply no_breaks_cons in Hl as [Hc Hl].
    assert (H13 : uchar_eqb c 13%N = false).
    { destruct (uchar_eqb c 13%N) eqn:E; [|reflexivity].
      apply uchar_eqb_spec in E; subst; discriminate. }
    rewrite H13, Hc, IH by assumption; simpl.
    rewrite <- app_assoc; reflexivity.
Qed.

Lemma splitlines_unlines_crlf (ls : list pystr) :
  Forall no_breaks ls -> splitlines (unlines_crlf ls) = ls.
Proof.
  unfold splitlines; induction 1 as [|l ls Hl Hls IH]; [reflexivity|].
  unfold unlines_crlf; simpl; rewrite <- app_assoc; simpl.
  rewrite splitlines_aux_line_crlf by assumption; simpl.
  f_equal; exact IH.
Qed.

Lemma splitlines_aux_unlines_app (ls : list pystr) (rest : pystr) :
  Forall no_breaks ls ->
  splitlines_aux (unlines ls ++ rest) [] = ls ++ splitlines_aux rest [].
Proof.
  induction 1 as [|l ls Hl Hls IH]; [reflexivity|].
  unfold unlines; simpl; rewrite <- !app_assoc; simpl.
  rewrite splitlines_aux_line by assumption; simpl.
  f_equal; exact IH.
Qed.

Lemma splitlines_aux_last (l cur : pystr) :
  no_breaks l ->
  splitlines_aux l cur = match rev cur ++ l with [] => [] | x => [x] end.
Proof.
  revert cur; induction l as [|c l IH]; intros cur Hl; simpl.
  - rewrite app_nil_r; destruct cur as [|c cur]; [reflexivity|].
    simpl; destruct (rev cur ++ [c]) eqn:E; [|reflexivity].
    apply (f_equal (@List.length _)) in E; rewrite length_app in E; simpl in E; lia.
  - apply no_breaks_cons in Hl as [Hc Hl].
    assert (H13 : uchar_eqb c 13%N = false).
    { destruct (uchar_eqb c 13%N) eqn:E; [|reflexivity].
      apply uchar_eqb_spec in E; subst; discriminate. }
    rewrite H13, Hc, IH by assumption; simpl; rewrite <- app_assoc; reflexivity.
Qed.

Lemma unlines_app (ls1 ls2 : list pystr) :
  unlines (ls1 ++ ls2) = unlines ls1 ++ unlines ls2.
Proof. unfold unlines; rewrite map_app, concat_app; reflexivity. Qed.

Lemma join_nl_snoc (ls : list pystr) (l : pystr) :
  join_nl (ls ++ [l]) = unlines ls ++ l.
Proof.
  induction ls as [|x ls IH]; [reflexivity|].
  destruct ls as [|y ls].
  - unfold unlines; simpl; rewrite app_nil_r, <- app_assoc; reflexivity.
  - change ((x :: y :: ls) ++ [l]) with (x :: y :: (ls ++ [l])).
    change (join_nl (x :: y :: (ls ++ [l]))) with (x ++ 10%N :: join_nl ((y :: ls) ++ [l])).
    rewrite IH; unfold unlines; simpl; rewrite <- !app_assoc; reflexivity.
Qed.

Lemma filter_length_perm {A} (f : A -> bool) (l l' : list A) :
  Permutation l l' -> List.length (filter f l) = List.length (filter f l').
Proof.
  induction 1; simpl; try reflexivity.
  - destruct (f x); simpl; lia.
  - destruct (f x), (f y); reflexivity.
  - lia.
Qed.

(** ** Properties of [parse_pdb_info] *)

(** X1: atoms counts the lines of [splitlines] that start with ATOM or
    HETATM. *)
Theorem parse_atoms_is_record_count :
  forall text, exists r, parse_pdb_info text = Ok r /\
    atoms r = List.length (filter is_record (splitlines text)).
Proof.
  intros text; destruct (parse_pdb_info_spec text) as (st & Hp & _ & Ha & _).
  eexists; split; [exact Hp | simpl; exact Ha].
Qed.

(** X2: the summary does not depend on the order of the lines. *)
Theorem parse_lines_permutation :
  forall text1 text2, Permutation (splitlines text1) (splitlines text2) ->
    parse_pdb_info text1 = parse_pdb_info text2.
Proof.
  intros t1 t2 Hp.
  destruct (parse_pdb_info_spec t1) as (st1 & H1 & (HR1 & HC1 & _) & Ha1 & Hk1 & Hc1).
  destruct (parse_pdb_info_spec t2) as (st2 & H2 & (HR2 & HC2 & _) & Ha2 & Hk2 & Hc2).
  rewrite H1, H2; f_equal; f_equal.
  - rewrite Ha1, Ha2; apply filter_length_perm; exact Hp.
  - apply NoDup_same_elements_length; auto.
    intros k; rewrite Hk1, Hk2; split; intros (l & ch & Hl & He); exists l, ch;
      split; auto; [apply (Permutation_in _ Hp) | apply (Permutation_in _ (Permutation_sym Hp))];
      exact Hl.
  - apply NoDup_same_elements_length; auto.
    intros ch; rewrite Hc1, Hc2; split; intros (l & k & Hl & He); exists l, k;
      split; auto; [apply (Permutation_in _ Hp) | apply (Permutation_in _ (Permutation_sym Hp))];
      exact Hl.
Qed.

Lemma parse_lines_permutation_witness :
  Permutation (splitlines (unlines [example_line_1; example_line_2B]))
              (splitlines (unlines [example_line_2B; example_line_1])) /\
  parse_pdb_info (unlines [example_line_1; example_line_2B]) =
    parse_pdb_info (unlines [example_line_2B; example_line_1]).
Proof.
  assert (Hp : Permutation (splitlines (unlines [example_line_1; example_line_2B]))
                 (splitlines (unlines [example_line_2B; example_line_1]))).
  { vm_compute; apply perm_swap. }
  split; [exact Hp | apply parse_lines_permutation; exact Hp].
Defined.

(** X3: terminating lines with "\r\n" instead of "\n" gives the same
    summary. *)
Theorem parse_crlf_same :
  forall ls, Forall no_breaks ls ->
    parse_pdb_info (unlines_crlf ls) = parse_pdb_info (unlines ls).
Proof.
  intros ls H; unfold parse_pdb_info.
  rewrite splitlines_unlines_crlf, splitlines_unlines by exact H; reflexivity.
Qed.

Lemma parse_crlf_same_witness :
  Forall no_breaks [example_line_1; example_line_2B] /\
  parse_pdb_info (unlines_crlf [example_line_1; example_line_2B]) =
    parse_pdb_info (unlines [example_line_1; example_line_2B]).
Proof.
  assert (H : Forall no_breaks [example_line_1; example_line_2B])
    by (vm_compute; repeat constructor).
  split; [exact H | apply parse_crlf_same; exact H].
Defined.

(** X4: a missing final newline does not change the summary. *)
Theorem parse_no_final_newline :
  forall ls, Forall no_breaks ls ->
    parse_pdb_info (join_nl ls) = parse_pdb_info (unlines ls).
Proof.
  intros ls; destruct ls as [|l ls' _] using rev_ind; [reflexivity|].
  intros H; apply Forall_app in H as [Hls Hl]; inversion Hl as [|? ? Hl' _]; subst.
  rewrite join_nl_snoc; unfold parse_pdb_info.
  rewrite (splitlines_unlines (ls' ++ [l])) by (apply Forall_app; auto).
  unfold splitlines; rewrite splitlines_aux_unlines_app by exact Hls.
  rewrite (splitlines_aux_last l []) by exact Hl'; simpl.
  destruct l as [|c l]; [|reflexivity].
  simpl; rewrite app_nil_r, for_lines_app.
  destruct (for_lines ls' init_state); reflexivity.
Qed.

Lemma parse_no_final_newline_witness :
  Forall no_breaks [example_line_1; example_line_2] /\
  parse_pdb_info (join_nl [example_line_1; example_line_2]) =
    parse_pdb_info (unlines [example_line_1; example_line_2]).
Proof.
  assert (H : Forall no_breaks [example_line_1; example_line_2])
    by (vm_compute; repeat constructor).
  split; [exact H | apply parse_no_final_newline; exact H].
Defined.

(** X5: a record line's effect depends only on its chain character
    (column 22) and its stripped residue field (columns 23-27): an ATOM and
    a HETATM line agreeing there, whatever else they hold, update the
    counters identically. *)
Theorem loop_body_fixed_columns_only :
  forall st l l',
    is_record l = true -> is_record l' = true ->
    nth_error l 21 = nth_error l' 21 ->
    strip (slice l 22 27) = strip (slice l' 22 27) ->
    loop_body st l = loop_body st l'.
Proof.
  intros st l l' Hr Hr' Hc Hs; unfold loop_body, getitem.
  rewrite Hr, Hr', Hc, Hs; reflexivity.
Qed.

Lemma loop_body_fixed_columns_only_witness :
  loop_body init_state example_line_1 =
  loop_body init_state
    (of_string "HETATM 9999 FE   HEM A  1      99.000  99.000  99.000  0.50 80.00          FE").
Proof.
  apply loop_body_fixed_columns_only; vm_compute; reflexivity.
Defined.

(** X6: summarising a file made of the lines [ls1] followed by any text
    [t2] adds the atom counts; the residue and chain counts lie between the
    larger of the two separate counts and their sum. *)
Theorem parse_concat_bounds :
  forall ls1 t2 r1 r2,
    Forall no_breaks ls1 ->
    parse_pdb_info (unlines ls1) = Ok r1 -> parse_pdb_info t2 = Ok r2 ->
    exists r, parse_pdb_info (unlines ls1 ++ t2) = Ok r /\
      atoms r = atoms r1 + atoms r2 /\
      Nat.max (residues r1) (residues r2) <= residues r <= residues r1 + residues r2 /\
      Nat.max (chains r1) (chains r2) <= chains r <= chains r1 + chains r2.
Proof.
  intros ls1 t2 r1 r2 Hls H1 H2.
  assert (Hsp : splitlines (unlines ls1 ++ t2) = ls1 ++ splitlines t2)
    by (apply splitlines_aux_unlines_app; exact Hls).
  destruct (parse_pdb_info_spec (unlines ls1)) as (s1 & P1 & (R1 & C1 & _) & A1 & K1 & Ch1).
  destruct (parse_pdb_info_spec t2) as (s2 & P2 & (R2 & C2 & _) & A2 & K2 & Ch2).
  destruct (parse_pdb_info_spec (unlines ls1 ++ t2)) as (s & P & (R & C & _) & A & K & Ch).
  rewrite splitlines_unlines in A1, K1, Ch1 by exact Hls.
  rewrite Hsp in A, K, Ch.
  rewrite P1 in H1; rewrite P2 in H2; injection H1 as <-; injection H2 as <-.
  exists (mk_info (st_atoms s) (List.length (st_residues s)) (List.length (st_chains s))).
  split; [exact P|]; simpl.
  assert (HK : forall k, In k (st_residues s) <-> In k (st_residues s1) \/ In k (st_residues s2)).
  { intros k; rewrite K, K1, K2; split.
    - intros (l & ch & Hl & He); apply in_app_or in Hl as [Hl|Hl]; eauto 6.
    - intros [(l & ch & Hl & He)|(l & ch & Hl & He)]; exists l, ch;
        split; auto; apply in_or_app; auto. }
  assert (HC : forall ch, In ch (st_chains s) <-> In ch (st_chains s1) \/ In ch (st_chains s2)).
  { intros ch; rewrite Ch, Ch1, Ch2; split.
    - intros (l & k & Hl & He); apply in_app_or in Hl as [Hl|Hl]; eauto 6.
    - intros [(l & k & Hl & He)|(l & k & Hl & He)]; exists l, k;
        split; auto; apply in_or_app; auto. }
  split; [rewrite A, A1, A2, filter_app, length_app; reflexivity|].
  assert (Hle : forall (a b c : list pystr), NoDup a -> NoDup b -> NoDup c ->
            (forall x, In x c <-> In x a \/ In x b) ->
            Nat.max (List.length a) (List.length b) <= List.length c
              <= List.length a + List.length b).
  { intros a b c Ha Hb Hc Hx; split.
    - apply Nat.max_lub; apply NoDup_incl_length; auto; intros x Hin; apply Hx; auto.
    - rewrite <- length_app; apply NoDup_incl_length; [exact Hc|].
      intros x Hin; apply in_or_app, Hx, Hin. }
  split; apply Hle; auto.
Qed.

Lemma parse_concat_bounds_witness :
  exists r, parse_pdb_info (unlines [example_line_1] ++ example_line_2B) = Ok r /\
    atoms r = 1 + 1 /\
    Nat.max 1 1 <= residues r <= 1 + 1 /\ Nat.max 1 1 <= chains r <= 1 + 1.
Proof.
  apply (parse_concat_bounds [example_line_1] example_line_2B (mk_info 1 1 1) (mk_info 1 1 1));
    vm_compute; [repeat constructor | reflexivity | reflexivity].
Defined.

(** ** Lines of [splitlines] are pieces of the text *)

Lemma splitlines_aux_piece (n : nat) :
  forall s cur l, List.length s <= n -> In l (splitlines_aux s cur) ->
    exists a b, rev cur ++ s = a ++ l ++ b.
Proof.
  induction n as [|n IH]; intros s cur l Hn Hin.
  - destruct s; [|simpl in Hn; lia].
    simpl in Hin; destruct cur; [destruct Hin|].
    destruct Hin as [<-|[]]; exists [], []; rewrite !app_nil_r; reflexivity.
  - destruct s as [|c s'].
    + simpl in Hin; destruct cur; [destruct Hin|].
      destruct Hin as [<-|[]]; exists [], []; rewrite !app_nil_r; reflexivity.
    + simpl in Hn, Hin.
      assert (Hhead : l = rev cur -> exists a b, rev cur ++ c :: s' = a ++ l ++ b)
        by (intros ->; exists [], (c :: s'); reflexivity).
      assert (Htail : forall t pre, c :: s' = pre ++ t -> List.length t <= n ->
                In l (splitlines_aux t []) ->
                exists a b, rev cur ++ c :: s' = a ++ l ++ b).
      { intros t pre Ht Hlt Hl; destruct (IH t [] l Hlt Hl) as (a & b & Hab).
        exists (rev cur ++ pre ++ a), b; simpl in Hab; rewrite Ht, Hab, <- !app_assoc;
          reflexivity. }
      destruct (uchar_eqb c 13%N).
      * destruct s' as [|d s''].
        -- destruct Hin as [<-|[]]; apply Hhead; reflexivity.
        -- destruct (uchar_eqb d 10%N); destruct Hin as [<-|Hin];
             [apply Hhead; reflexivity | | apply Hhead; reflexivity |].
           ++ apply (Htail s'' [c; d]); [reflexivity | simpl in Hn; lia | exact Hin].
           ++ apply (Htail (d :: s'') [c]); [reflexivity | simpl in Hn |- *; lia | exact Hin].
      * destruct (is_line_break c).
        -- destruct Hin as [<-|Hin]; [apply Hhead; reflexivity|].
           apply (Htail s' [c]); [reflexivity | lia | exact Hin].
        -- destruct (IH s' (c :: cur) l ltac:(lia) Hin) as (a & b & Hab).
           exists a, b; simpl in Hab; rewrite <- app_assoc in Hab; exact Hab.
Qed.

Lemma splitlines_piece (text l : pystr) :
  In l (splitlines text) -> exists a b, text = a ++ l ++ b.
Proof.
  intros H; exact (splitlines_aux_piece (List.length text) text [] l (le_n _) H).
Qed.

Lemma contains_startswith (s sub : pystr) :
  startswith s sub = true -> contains s sub = true.
Proof. destruct s; simpl; intros ->; [reflexivity | reflexivity]. Qed.

Lemma contains_app_l (a s sub : pystr) :
  contains s sub = true -> contains (a ++ s) sub = true.
Proof.
  induction a as [|x a IH]; simpl; [auto|].
  intros H; rewrite IH by exact H; apply orb_true_r.
Qed.

Lemma startswith_app (l b p : pystr) :
  startswith l p = true -> startswith (l ++ b) p = true.
Proof.
  rewrite !startswith_spec; intros [t ->]; exists (t ++ b); symmetry; apply app_assoc.
Qed.

(** ** Properties of [upload_pdb] *)

(** X7: a request whose file part has a non-empty name ending in .pdb
    (after [lower]), UTF-8 bytes and text containing ATOM or HETATM is
    accepted: [parse_pdb_info] is called once on the decoded text, and the
    response carries its summary, the file name as uploaded and the text. *)
Theorem upload_pdb_accepts :
  forall py_lower req file t,
    files_file req = Some file -> filename file <> [] ->
    endswith (py_lower (filename file)) (of_string ".pdb") = true ->
    decode_utf8 (file_bytes file) = Some t ->
    contains t ATOM = true \/ contains t HETATM = true ->
    exists info, parse_pdb_info t = Ok info /\
      upload_pdb py_lower req = ([EvParse t], Ok (JsonInfo info (filename file) t)).
Proof.
  intros py_lower req file t Hf Hn He Hd Hc.
  destruct (parse_pdb_info_spec t) as (st & Hp & _).
  eexists; split; [exact Hp|].
  unfold upload_pdb; rewrite Hf.
  destruct (pystr_eqb (filename file) []) eqn:Hz;
    [apply pystr_eqb_spec in Hz; contradiction|].
  rewrite He, Hd; simpl.
  destruct Hc as [Hc|Hc]; rewrite Hc;
    [|destruct (contains t ATOM)]; simpl; rewrite Hp; reflexivity.
Qed.

Lemma upload_pdb_accepts_witness :
  exists info, parse_pdb_info (of_string "ATOM") = Ok info /\
    upload_pdb ascii_lower (upload_request "1CBS.PDB" "ATOM") =
      ([EvParse (of_string "ATOM")],
       Ok (JsonInfo info (of_string "1CBS.PDB") (of_string "ATOM"))).
Proof.
  apply (upload_pdb_accepts ascii_lower (upload_request "1CBS.PDB" "ATOM")
           (mk_file (of_string "1CBS.PDB") (list_byte_of_string "ATOM")));
    [reflexivity | discriminate | vm_compute; reflexivity
    | vm_compute; reflexivity | left; vm_compute; reflexivity].
Defined.

(** X8: a text in which [parse_pdb_info] counts at least one atom always
    passes the content check of [upload_pdb]: it contains ATOM or HETATM. *)
Theorem counted_atom_passes_content_check :
  forall t r, parse_pdb_info t = Ok r -> 1 <= atoms r ->
    contains t ATOM = true \/ contains t HETATM = true.
Proof.
  intros t r Hp Ha.
  destruct (parse_pdb_info_spec t) as (st & Hp' & _ & Hat & _).
  rewrite Hp' in Hp; injection Hp as <-; simpl in Ha; rewrite Hat in Ha.
  destruct (filter is_record (splitlines t)) as [|l rest] eqn:Hf; [simpl in Ha; lia|].
  assert (Hl : In l (filter is_record (splitlines t))) by (rewrite Hf; left; reflexivity).
  apply filter_In in Hl as [Hin Hr].
  destruct (splitlines_piece t l Hin) as (a & b & ->).
  unfold is_record in Hr; apply orb_true_iff in Hr as [H|H]; [left|right];
    apply contains_app_l, contains_startswith, startswith_app, H.
Qed.

Lemma counted_atom_passes_content_check_witness :
  contains (unlines [of_string "HEADER"; example_line_1]) ATOM = true \/
  contains (unlines [of_string "HEADER"; example_line_1]) HETATM = true.
Proof.
  apply (counted_atom_passes_content_check _ (mk_info 1 1 1));
    [vm_compute; reflexivity | simpl; lia].
Defined.

(** X9: the only exception [upload_pdb] lets escape is
    [UnicodeDecodeError], exactly when the file part has a non-empty name
    ending in .pdb (after [lower]) and its bytes are not valid UTF-8. *)
Theorem upload_pdb_raises_only_decode_error :
  forall py_lower req e,
    snd (upload_pdb py_lower req) = Raise e <->
    e = UnicodeDecodeError /\
    exists file, files_file req = Some file /\ filename file <> [] /\
      endswith (py_lower (filename file)) (of_string ".pdb") = true /\
      decode_utf8 (file_bytes file) = None.
Proof.
  intros py_lower req e; unfold upload_pdb; split.
  - destruct (files_file req) as [file|]; [|discriminate].
    destruct (pystr_eqb (filename file) []) eqn:Hz; [discriminate|].
    destruct (endswith (py_lower (filename file)) (of_string ".pdb")) eqn:He;
      [|discriminate].
    simpl; destruct (decode_utf8 (file_bytes file)) as [t|] eqn:Hd.
    + destruct (negb (contains t ATOM) && negb (contains t HETATM)); [discriminate|].
      simpl; destruct (parse_pdb_info_spec t) as (st & Hp & _); rewrite Hp; discriminate.
    + simpl; intros H; injection H as <-; split; [reflexivity|].
      exists file; repeat split; auto.
      intros Hn; apply pystr_eqb_spec in Hn; congruence.
  - intros [-> (file & Hf & Hn & He & Hd)]; rewrite Hf.
    destruct (pystr_eqb (filename file) []) eqn:Hz;
      [apply pystr_eqb_spec in Hz; contradiction|].
    rewrite He, Hd; reflexivity.
Qed.

Lemma upload_pdb_raises_only_decode_error_witness :
  snd (upload_pdb ascii_lower
         (mk_request (Some (mk_file (of_string "a.pdb") [Byte.xff])))) =
    Raise UnicodeDecodeError.
Proof.
  apply (proj2 (upload_pdb_raises_only_decode_error ascii_lower _ _)).
  split; [reflexivity|]; eexists; split; [reflexivity|].
  split; [discriminate|]; split; vm_compute; reflexivity.
Defined.

